(** * tide_calendar: the [TidePredictor] pipeline of [streamlit_app.py]

    A shallow embedding of the class [TidePredictor]: its fields, the
    threshold test [check_interval], the one-pass interval scan of
    [get_intervals], the prediction fetcher and the calendar exporter.

    Heights are Python floats, that is IEEE 754 binary64 numbers; they are
    modelled by Rocq's primitive floats, whose comparisons are the IEEE
    ones.  Timestamps ([pandas.Timestamp]) are integers (nanoseconds since
    the epoch); only their order matters here. *)

From Stdlib Require Import ZArith List Bool Ascii String Sorting.Sorted Lia.
From Stdlib Require Import PrimFloat DecimalString.
Import ListNotations.

Local Open Scope Z_scope.

(** ** Python values used by the class *)

(** A Python float. *)
Definition pyfloat : Type := float.

(** Truth value of an optional float, as in [if self.low]: [None] is false,
    and a float is false exactly when it compares equal to zero (so [0.0]
    and [-0.0] are false, every other float, NaN included, is true). *)
Definition truthy (x : option pyfloat) : bool :=
  match x with
  | None => false
  | Some f => negb (PrimFloat.eqb f 0%float)
  end.

(** [v < h] and [v > l] on floats. *)
Definition flt (a b : pyfloat) : bool := PrimFloat.ltb a b.
Definition fgt (a b : pyfloat) : bool := PrimFloat.ltb b a.

(** The closure [check_interval] of [get_intervals], with the two fields
    it reads, [self.low] and [self.high], as arguments. *)
Definition check_interval (low high : option pyfloat) (v : pyfloat) : bool :=
  if truthy low && truthy high then
    match low, high with
    | Some l, Some h => flt v h && fgt v l
    | _, _ => true
    end
  else if truthy low then
    match low with Some l => fgt v l | None => true end
  else if truthy high then
    match high with Some h => flt v h | None => true end
  else true.

(** The threshold test as the documentation describes it: a threshold is
    set when a value was supplied, [0.0] included, and unset when it is
    [None]. *)
Definition threshold_spec (low high : option pyfloat) (v : pyfloat) : bool :=
  match low, high with
  | Some l, Some h => fgt v l && flt v h
  | Some l, None => fgt v l
  | None, Some h => flt v h
  | None, None => true
  end.

(** The threshold that [check_interval] goes by: a threshold that fails
    the truth test counts as [None]. *)
Definition effective (x : option pyfloat) : option pyfloat :=
  if truthy x then x else None.

(** ** The state of a [TidePredictor] *)

Definition timestamp : Type := Z.

(** One row of a data frame indexed by timestamp with a [height] column,
    as [itertuples()] yields it. *)
Definition sample : Type := (timestamp * pyfloat)%type.

(** An element of [self.intervals]: the tuple [(start, end)]. *)
Definition interval : Type := (timestamp * timestamp)%type.

(** A JSON object with string values, in key order. *)
Definition pydict : Type := list (string * string).

Fixpoint dict_get (d : pydict) (k : string) : option string :=
  match d with
  | [] => None
  | (k', x) :: d' => if String.eqb k' k then Some x else dict_get d' k
  end.

Record TidePredictor : Type := mkTidePredictor {
  station_id : string;
  begin_date : string;
  end_date : string;
  units : string;
  low : option pyfloat;
  high : option pyfloat;
  tides : option (list sample);
  interpolated_tides : option (list sample);
  intervals : option (list interval);
  station_info : option (list pydict)
}.

(** [TidePredictor.__init__]. *)
Definition init (station_id begin_date end_date units : string)
    (low high : option pyfloat) : TidePredictor :=
  mkTidePredictor station_id begin_date end_date units low high
                  None None None None.

(** The exceptions the methods can raise. *)
Inductive pyexc : Type :=
| TypeError
| AttributeError
| KeyError
| IndexError
| ValueError.

(** How a method call ends. *)
Inductive outcome : Type :=
| Returned
| Raised (e : pyexc).

(** ** [get_intervals] *)

Section Scan.

(** The test applied to each height. *)
Variable check : pyfloat -> bool.

(** The two local variables of the loop: [intervals] and [start]. *)
Definition loop_state : Type := (list interval * option timestamp)%type.

(** One iteration of [for t, v in self.interpolated_tides.itertuples()]. *)
Definition loop_body (st : loop_state) (tv : sample) : loop_state :=
  let '(ivs, start) := st in
  let '(t, v) := tv in
  if check v then
    match start with
    | None => (ivs, Some t)
    | Some _ => (ivs, start)
    end
  else
    match start with
    | Some s => (ivs ++ [(s, t)], None)
    | None => (ivs, start)
    end.

(** The whole loop, from [intervals = []] and [start = None]. *)
Definition loop (samples : list sample) : loop_state :=
  fold_left loop_body samples ([], None).

(** The scan as the specification words it: [opened] is the provisional
    start while an interval is open.  An interval opens at the first
    sample that passes the test, is closed and emitted at the first
    later sample that fails it, and an interval still open at the end
    of the series is dropped. *)
Fixpoint forward_scan (opened : option timestamp) (samples : list sample)
  : list interval :=
  match samples with
  | [] => []
  | (t, v) :: rest =>
      match opened with
      | None =>
          if check v then forward_scan (Some t) rest
          else forward_scan None rest
      | Some s =>
          if check v then forward_scan (Some s) rest
          else (s, t) :: forward_scan None rest
      end
  end.

End Scan.

(** The list that [get_intervals] assigns to [self.intervals], for the
    thresholds [low], [high] and the rows of [self.interpolated_tides]. *)
Definition emitted (low high : option pyfloat) (samples : list sample)
  : list interval :=
  fst (loop (check_interval low high) samples).

(** [get_intervals]: the state after the call and how the call ended.
    With no interpolated series, [None.itertuples()] raises before any
    field is written. *)
Definition get_intervals (self : TidePredictor) : TidePredictor * outcome :=
  match interpolated_tides self with
  | None => (self, Raised AttributeError)
  | Some df =>
      (mkTidePredictor (station_id self) (begin_date self) (end_date self)
         (units self) (low self) (high self) (tides self)
         (interpolated_tides self)
         (Some (emitted (low self) (high self) df))
         (station_info self),
       Returned)
  end.

(** ** What the properties of [get_intervals] speak about *)

(** [x] and [y] are consecutive rows of the series. *)
Definition adjacent (samples : list sample) (x y : sample) : Prop :=
  exists pre post, samples = pre ++ x :: y :: post.

(** The timestamps of a series are strictly increasing. *)
Definition increasing (samples : list sample) : Prop :=
  StronglySorted Z.lt (map fst samples).

(** The test passes at every row strictly inside the interval. *)
Definition passes_inside (check : pyfloat -> bool) (samples : list sample)
    (iv : interval) : Prop :=
  forall t v, In (t, v) samples -> fst iv < t < snd iv -> check v = true.

(** The test fails at the row just before the row of the interval's
    start, when there is one. *)
Definition fails_before_start (check : pyfloat -> bool)
    (samples : list sample) (iv : interval) : Prop :=
  forall x y, adjacent samples x y -> fst y = fst iv -> check (snd x) = false.

(** The test fails at the row just after the row of the interval's end,
    when there is one. *)
Definition fails_after_end (check : pyfloat -> bool)
    (samples : list sample) (iv : interval) : Prop :=
  forall x y, adjacent samples x y -> fst x = snd iv -> check (snd y) = false.

(** The test fails at the row of the interval's end. *)
Definition fails_at_end (check : pyfloat -> bool)
    (samples : list sample) (iv : interval) : Prop :=
  forall v, In (snd iv, v) samples -> check v = false.

(** The claim on every emitted interval as the specification states it. *)
Definition brackets_run (check : pyfloat -> bool) (samples : list sample)
    (iv : interval) : Prop :=
  passes_inside check samples iv
  /\ fails_before_start check samples iv
  /\ fails_after_end check samples iv.

(** The last row of a nonempty stretch fails the test. *)
Definition ends_failing (check : pyfloat -> bool) (pre : list sample) : Prop :=
  exists pre' x, pre = pre' ++ [x] /\ check (snd x) = false.

(** The interval [iv] marks a run of the series: after a stretch [pre]
    accepted by [ok] comes the row of the start, which passes the test,
    then rows that all pass, then the row of the end, which fails. *)
Definition run_in (check : pyfloat -> bool) (ok : list sample -> Prop)
    (samples : list sample) (iv : interval) : Prop :=
  exists pre vs mid ve post,
    samples = pre ++ (fst iv, vs) :: mid ++ (snd iv, ve) :: post
    /\ ok pre
    /\ check vs = true
    /\ Forall (fun tv => check (snd tv) = true) mid
    /\ check ve = false.

(** The run of an interval that was already open at [s] when the scan of
    [samples] began. *)
Definition run_from (check : pyfloat -> bool) (s : timestamp)
    (samples : list sample) (iv : interval) : Prop :=
  fst iv = s
  /\ exists mid ve post,
       samples = mid ++ (snd iv, ve) :: post
       /\ Forall (fun tv => check (snd tv) = true) mid
       /\ check ve = false.

(** The endpoints of a list of intervals, in order:
    [start1; end1; start2; end2; ...]. *)
Fixpoint endpoints (ivs : list interval) : list timestamp :=
  match ivs with
  | [] => []
  | (s, e) :: rest => s :: e :: endpoints rest
  end.

(** The bound that the endpoints of a scan inherit: at or after the open
    start, or after the bound of the rows when none is open. *)
Definition floor_of (opened : option timestamp) (b x : timestamp) : Prop :=
  match opened with
  | Some s => s <= x
  | None => b < x
  end.

(** Every interval ends before each later one starts. *)
Definition non_overlapping (ivs : list interval) : Prop :=
  ForallOrdPairs (fun a b => snd a < fst b) ivs.

(** Start times are strictly increasing. *)
Definition starts_increasing (ivs : list interval) : Prop :=
  StronglySorted Z.lt (map fst ivs).

(** ** [get_tide_predictions] *)

(** A call [requests.get(url, params=params)] and its answer. *)
Record request : Type := mkRequest {
  url : string;
  params : list (string * string)
}.

Record response : Type := mkResponse {
  status_code : Z;
  text : string
}.

Definition base_url : string :=
  "https://api.tidesandcurrents.noaa.gov/api/prod/datagetter".

Definition prediction_params (self : TidePredictor) : list (string * string) :=
  [ ("station", station_id self);
    ("product", "predictions");
    ("time_zone", "GMT");
    ("begin_date", begin_date self);
    ("end_date", end_date self);
    ("units", units self);
    ("datum", "MLLW");
    ("interval", "hilo");
    ("format", "json");
    ("application", "Web_Services") ]%string.

(** [self.tides = x]. *)
Definition set_tides (self : TidePredictor) (x : option (list sample))
  : TidePredictor :=
  mkTidePredictor (station_id self) (begin_date self) (end_date self)
    (units self) (low self) (high self) x
    (interpolated_tides self) (intervals self) (station_info self).

(** What a call leaves behind: the object, how the call ended, and the
    requests it sent, in order. *)
Record fetched : Type := mkFetched {
  after : TidePredictor;
  ended : outcome;
  sent : list request
}.

Section Fetch.

(** The remote service: the answer of [requests.get] to a request. *)
Variable remote : request -> response.

(** The branch taken on status 200, from [json.loads(response.text)] to
    [set_index]: these are calls into [json] and [pandas].  From the
    response text and the value [self.tides] had, [decode] gives the
    value of [self.tides] when the branch ends and how it ends. *)
Variable decode : string -> option (list sample)
                  -> option (list sample) * outcome.

Definition get_tide_predictions (self : TidePredictor) : fetched :=
  let req := mkRequest base_url (prediction_params self) in
  let response := remote req in
  if status_code response =? 200 then
    let '(df, how) := decode (text response) (tides self) in
    mkFetched (set_tides self df) how [req]
  else
    mkFetched (set_tides self None) Returned [req].

End Fetch.

(** ** [interpolate_tides] *)

(** [self.interpolated_tides = x]. *)
Definition set_interpolated_tides (self : TidePredictor)
    (x : option (list sample)) : TidePredictor :=
  mkTidePredictor (station_id self) (begin_date self) (end_date self)
    (units self) (low self) (high self) (tides self)
    x (intervals self) (station_info self).

Section Interpolate.

(** The pandas call [df.resample('1T').interpolate(method='pchip')]:
    the resampled rows, or the exception it raises.  The method has no
    code of its own besides this call. *)
Variable resample_interpolate : list sample -> pyexc + list sample.

(** With [self.tides] equal to [None] the subscript
    [self.tides[['height']]] raises. *)
Definition interpolate_tides (self : TidePredictor)
  : TidePredictor * outcome :=
  match tides self with
  | None => (self, Raised TypeError)
  | Some df =>
      match resample_interpolate df with
      | inl e => (self, Raised e)
      | inr rows => (set_interpolated_tides self (Some rows), Returned)
      end
  end.

End Interpolate.

(** ** [create_ical_file] *)

(** A timestamp with a [tzinfo] attached: the wall-clock time and the
    offset from UTC in seconds. *)
Record aware : Type := mkAware {
  wall : timestamp;
  utcoffset : Z
}.

(** An [icalendar.Event] with the three properties the exporter adds. *)
Record Event : Type := mkEvent {
  summary : string;
  dtstart : aware;
  dtend : aware
}.

(** An [icalendar.Calendar]: its VEVENT components, in the order added. *)
Definition Calendar : Type := list Event.

(** [timezone(timedelta(hours=h))], as its offset in seconds. *)
Definition timezone_hours (h : Z) : Z := h * 3600.

(** [t.replace(tzinfo=tz)]: the wall-clock time is kept. *)
Definition replace_tzinfo (t : timestamp) (tz : Z) : aware := mkAware t tz.

(** [s] occurs in [t]. *)
Definition contains (s t : string) : Prop :=
  exists a b, t = (a ++ s ++ b)%string.

(** The double quote character, as a string. *)
Definition dquote : string := String (ascii_of_nat 34) EmptyString.

(** What [create_ical_file] hands out: the calendar it built, the bytes
    written to [mycalendar.ics] and the link given to [st.markdown]. *)
Record exported : Type := mkExported {
  cal : Calendar;
  ics_file : string;
  markdown : string
}.

Section Exporter.

(** [str] of a float, as an f-string formats it. *)
Variable float_str : pyfloat -> string.
(** [Calendar.to_ical] and [base64.b64encode(...).decode()]. *)
Variable to_ical : Calendar -> string.
Variable b64encode : string -> string.

(** [f'{x}'] for a threshold. *)
Definition format_threshold (x : option pyfloat) : string :=
  match x with
  | None => "None"
  | Some f => float_str f
  end.

(** The text of [f'{station_name} min {self.low} max {self.high}']. *)
Definition summary_text (station_name : string)
    (low high : option pyfloat) : string :=
  (station_name ++ " min " ++ format_threshold low
     ++ " max " ++ format_threshold high)%string.

(** The body of the loop over [self.intervals]. *)
Definition add_event (station_name : string) (low high : option pyfloat)
    (tz_offset : Z) (c : Calendar) (iv : interval) : Calendar :=
  let '(start, stop) := iv in
  let event :=
    mkEvent (summary_text station_name low high)
            (replace_tzinfo start tz_offset)
            (replace_tzinfo stop tz_offset) in
  c ++ [event].

Definition href (b64 : string) : string :=
  ("<a href=" ++ dquote ++ "data:file/ics;base64," ++ b64 ++ dquote
     ++ " download=" ++ dquote ++ "mycalendar.ics" ++ dquote
     ++ ">Download iCalendar file</a>")%string.

Definition create_ical_file (self : TidePredictor) : pyexc + exported :=
  let tz_offset := timezone_hours 0 in
  match station_info self with
  | None => inl TypeError
  | Some [] => inl IndexError
  | Some (first :: _) =>
      match dict_get first "name" with
      | None => inl KeyError
      | Some station_name =>
          match intervals self with
          | None => inl TypeError
          | Some ivs =>
              let c :=
                fold_left
                  (add_event station_name (low self) (high self) tz_offset)
                  ivs [] in
              let contents := to_ical c in
              inr (mkExported c contents (href (b64encode contents)))
          end
      end
  end.

End Exporter.

(** ** [get_station_info] *)

(** The address [get_station_info] asks. *)
Definition station_endpoint (self : TidePredictor) : string :=
  ("https://api.tidesandcurrents.noaa.gov/mdapi/prod/webapi/stations/"
     ++ station_id self ++ ".json")%string.

(** The line printed when the station request fails. *)
Definition station_failure : string := "Failed to retrieve  station info".

(** [self.station_info = x]. *)
Definition set_station_info (self : TidePredictor)
    (x : option (list pydict)) : TidePredictor :=
  mkTidePredictor (station_id self) (begin_date self) (end_date self)
    (units self) (low self) (high self) (tides self)
    (interpolated_tides self) (intervals self) x.

(** What a call of [get_station_info] leaves behind: the object, how the
    call ended, the requests sent and the lines printed. *)
Record informed : Type := mkInformed {
  info_after : TidePredictor;
  info_ended : outcome;
  info_sent : list request;
  info_printed : list string
}.

Section Station.

Variable remote : request -> response.

(** [response.json()['stations']]: the list of station records in the
    answer, or the exception raised while reading it. *)
Variable stations_of : string -> pyexc + list pydict.

Definition get_station_info (self : TidePredictor) : informed :=
  let req := mkRequest (station_endpoint self) [] in
  let response := remote req in
  if status_code response =? 200 then
    match stations_of (text response) with
    | inr stations =>
        mkInformed (set_station_info self (Some stations)) Returned [req] []
    | inl e => mkInformed self (Raised e) [req] []
    end
  else
    mkInformed self Returned [req] [station_failure].

End Station.

(** ** [run] *)

(** What a call of [run] leaves behind: the object, how the call ended,
    the requests sent, the lines printed and, when the exporter was
    reached and returned, what it handed out. *)
Record ran : Type := mkRan {
  final : TidePredictor;
  how_ended : outcome;
  requests : list request;
  printed : list string;
  output : option exported
}.

Section Run.

Variable remote : request -> response.
Variable decode : string -> option (list sample)
                  -> option (list sample) * outcome.
Variable resample_interpolate : list sample -> pyexc + list sample.
Variable stations_of : string -> pyexc + list pydict.
Variable float_str : pyfloat -> string.
Variable to_ical : Calendar -> string.
Variable b64encode : string -> string.

(** The five steps in order; an exception raised by a step ends the
    call there. *)
Definition run (self : TidePredictor) : ran :=
  let p := get_tide_predictions remote decode self in
  match ended p with
  | Raised e => mkRan (after p) (Raised e) (sent p) [] None
  | Returned =>
      match interpolate_tides resample_interpolate (after p) with
      | (s1, Raised e) => mkRan s1 (Raised e) (sent p) [] None
      | (s1, Returned) =>
          match get_intervals s1 with
          | (s2, Raised e) => mkRan s2 (Raised e) (sent p) [] None
          | (s2, Returned) =>
              let g := get_station_info remote stations_of s2 in
              match info_ended g with
              | Raised e =>
                  mkRan (info_after g) (Raised e)
                        (sent p ++ info_sent g) (info_printed g) None
              | Returned =>
                  match create_ical_file float_str to_ical b64encode
                                         (info_after g) with
                  | inl e =>
                      mkRan (info_after g) (Raised e)
                            (sent p ++ info_sent g) (info_printed g) None
                  | inr out =>
                      mkRan (info_after g) Returned
                            (sent p ++ info_sent g) (info_printed g)
                            (Some out)
                  end
              end
          end
      end
  end.

End Run.

(** The interval an event spans, read back from its two times. *)
Definition event_span (ev : Event) : interval :=
  (wall (dtstart ev), wall (dtend ev)).

(** ** The script [main.py] *)

Definition stations_url : string :=
  "https://api.tidesandcurrents.noaa.gov/mdapi/prod/webapi/stations.json".

(** The line printed when the catalog request fails. *)
Definition catalog_failure : string := "Failed to retrieve tide station list".

(** [print(n)] for a length [n]: its decimal digits. *)
Definition print_len (n : nat) : string :=
  NilZero.string_of_uint (Nat.to_uint n).

(** What [get_tide_stations] or the script leaves behind: the value
    returned or the exception raised, the requests sent and the lines
    printed. *)
Record scripted (A : Type) : Type := mkScripted {
  result : pyexc + A;
  script_sent : list request;
  script_printed : list string
}.
Arguments mkScripted {A} _ _ _.
Arguments result {A} _.
Arguments script_sent {A} _.
Arguments script_printed {A} _.

Section Catalog.

Variable remote : request -> response.
Variable stations_of : string -> pyexc + list pydict.

(** [get_tide_stations]: the list of stations, or [None] after the
    failure line was printed. *)
Definition get_tide_stations : scripted (option (list pydict)) :=
  let req := mkRequest stations_url [] in
  let response := remote req in
  if status_code response =? 200 then
    match stations_of (text response) with
    | inr tide_stations => mkScripted (inr (Some tide_stations)) [req] []
    | inl e => mkScripted (inl e) [req] []
    end
  else
    mkScripted (inr None) [req] [catalog_failure].

(** The body of the module: [tide_stations = get_tide_stations()] and
    then [print(len(tide_stations))], where [len(None)] raises. *)
Definition main : scripted unit :=
  let c := get_tide_stations in
  match result c with
  | inl e => mkScripted (inl e) (script_sent c) (script_printed c)
  | inr None => mkScripted (inl TypeError) (script_sent c) (script_printed c)
  | inr (Some tide_stations) =>
      mkScripted (inr tt) (script_sent c)
                 (script_printed c ++ [print_len (List.length tide_stations)])
  end.

End Catalog.

(** ** Sample data *)

(** A series that rises above 5.0 twice. *)
Definition two_humps : list sample :=
  [(0, 6%float); (60, 1%float); (120, 6%float); (180, 1%float)].

(** A predictor whose interpolated series is [two_humps], with the lower
    threshold 5.0 and a station record. *)
Definition demo : TidePredictor :=
  mkTidePredictor "TWC0419" "20240101" "20240102" "metric"
    (Some 5%float) None None (Some two_humps) None
    (Some [[("id", "TWC0419"); ("name", "Nanoose Bay")]%string]).

(** A remote service that answers every request with status 404. *)
Definition not_found : request -> response :=
  fun _ => mkResponse 404 "Not Found".

(** A decoder that stores no rows; it is not reached on status 404. *)
Definition no_rows : string -> option (list sample)
                     -> option (list sample) * outcome :=
  fun _ _ => (Some [], Returned).

(** The predictor [demo] after [get_intervals]. *)
Definition demo_scanned : TidePredictor := fst (get_intervals demo).

(** Stand-ins for the library functions of the exporter. *)
Definition demo_float_str : pyfloat -> string := fun _ => "5.0"%string.
Definition demo_to_ical : Calendar -> string :=
  fun c => String.concat ";"%string (map summary c).
Definition demo_b64encode : string -> string := fun s => s.

(** A remote service that answers every request with status 200. *)
Definition all_ok : request -> response :=
  fun _ => mkResponse 200 "{}".

(** Stand-ins for the decoding of the two answers and for the pandas
    call: the rows of [two_humps], kept as they are, and one station. *)
Definition demo_decode : string -> option (list sample)
                         -> option (list sample) * outcome :=
  fun _ _ => (Some two_humps, Returned).
Definition demo_resample : list sample -> pyexc + list sample :=
  fun df => inr df.
Definition demo_stations : string -> pyexc + list pydict :=
  fun _ => inr [[("id", "TWC0419"); ("name", "Nanoose Bay")]%string].

(** A fresh predictor with the lower threshold 5.0. *)
Definition fresh : TidePredictor :=
  init "TWC0419" "20240101" "20240102" "metric" (Some 5%float) None.

(** A remote service where the predictions are served and everything else
    answers 404. *)
Definition station_down : request -> response :=
  fun r => if String.eqb (url r) base_url then mkResponse 200 "{}"
           else mkResponse 404 "Not Found".

(** * Properties *)

Example emitted_two_humps :
  emitted (Some 5%float) None two_humps = [(0, 60); (120, 180)].
Proof. reflexivity. Qed.

Example emitted_trailing_dropped :
  emitted (Some 5%float) None [(0, 1%float); (60, 6%float); (120, 7%float)]
  = [].
Proof. reflexivity. Qed.

(** ** The threshold test *)

(** Where both thresholds are unset or nonzero, the truth tests of
    [check_interval] tell set from unset, and the code follows the table. *)
Lemma truthy_set (x : pyfloat) :
  PrimFloat.eqb x 0%float = false -> truthy (Some x) = true.
Proof. intros H. unfold truthy. now rewrite H. Qed.

Lemma check_interval_nonzero (low high : option pyfloat) (v : pyfloat) :
  (forall l, low = Some l -> PrimFloat.eqb l 0%float = false) ->
  (forall h, high = Some h -> PrimFloat.eqb h 0%float = false) ->
  check_interval low high v = threshold_spec low high v.
Proof.
  intros Hl Hh. unfold check_interval, threshold_spec.
  destruct low as [l|], high as [h|];
    repeat match goal with
           | H : forall x, Some ?y = Some x -> _ |- _ =>
               specialize (H y eq_refl); apply truthy_set in H; rewrite H
           end; simpl; try reflexivity.
  apply andb_comm.
Qed.

(** C1, at an input where it fails: with [low = 0.0] and [high = 2.0] the
    code accepts the height [-1.0], which is not strictly between the two:
    the truth test [if self.low and self.high] takes the supplied [0.0]
    for an unset threshold, and only [v < 2.0] is tested. *)
Theorem check_interval_zero_low :
  check_interval (Some 0%float) (Some 2%float) (-1)%float = true
  /\ threshold_spec (Some 0%float) (Some 2%float) (-1)%float = false.
Proof. split; reflexivity. Qed.

(** The same with the upper threshold unset. *)
Example zero_low_alone_passes :
  check_interval (Some 0%float) None (-1)%float = true
  /\ threshold_spec (Some 0%float) None (-1)%float = false.
Proof. split; reflexivity. Qed.

(** ** The loop and the forward scan *)

Section ScanFacts.

Variable check : pyfloat -> bool.

(** The loop started in any state: what was emitted so far stays in
    front, and the rest is the forward scan from the current [start]. *)
Lemma fold_loop_body (samples : list sample) :
  forall ivs start,
    fst (fold_left (loop_body check) samples (ivs, start))
    = ivs ++ forward_scan check start samples.
Proof.
  induction samples as [|[t v] rest IH]; intros ivs start; simpl.
  - now rewrite app_nil_r.
  - destruct (check v), start as [s|]; rewrite IH; try reflexivity.
    now rewrite <- app_assoc.
Qed.

Lemma loop_forward_scan (samples : list sample) :
  fst (loop check samples) = forward_scan check None samples.
Proof. unfold loop. now rewrite fold_loop_body. Qed.

(** While the test passes, no interval is closed. *)
Lemma forward_scan_all_pass (samples : list sample) :
  Forall (fun tv => check (snd tv) = true) samples ->
  forall opened, forward_scan check opened samples = [].
Proof.
  induction 1 as [|[t v] rest Hv _ IH]; intros opened; simpl in *.
  - reflexivity.
  - rewrite Hv. destruct opened; apply IH.
Qed.

(** *** Order of the endpoints *)

Lemma forward_scan_endpoints (samples : list sample) :
  StronglySorted Z.lt (map fst samples) ->
  forall opened b,
    Forall (Z.lt b) (map fst samples) ->
    match opened with Some s => s <= b | None => True end ->
    StronglySorted Z.lt (endpoints (forward_scan check opened samples))
    /\ Forall (floor_of opened b)
              (endpoints (forward_scan check opened samples)).
Proof.
  induction samples as [|[t v] rest IH]; intros Hs opened b Hb Ho.
  - simpl. split; constructor.
  - simpl in Hs, Hb. apply StronglySorted_inv in Hs as [Hs Ht].
    inversion Hb as [|? ? Hbt _]; subst.
    simpl. destruct opened as [s|], (check v).
    + destruct (IH Hs (Some s) t Ht) as [S F]; [lia|]. now split.
    + destruct (IH Hs None t Ht I) as [S F].
      simpl. split.
      * constructor; [constructor; [exact S | exact F]|].
        constructor; [lia|].
        eapply Forall_impl; [|exact F]. simpl. intros; lia.
      * constructor; [simpl; lia|]. constructor; [simpl; lia|].
        eapply Forall_impl; [|exact F]. simpl. intros; lia.
    + destruct (IH Hs (Some t) t Ht) as [S F]; [lia|]. split; [exact S|].
      eapply Forall_impl; [|exact F]. simpl. intros; lia.
    + destruct (IH Hs None t Ht I) as [S F]. split; [exact S|].
      eapply Forall_impl; [|exact F]. simpl. intros; lia.
Qed.

End ScanFacts.

(** Bounds on the endpoints are bounds on both ends of every interval. *)
Lemma endpoints_Forall (Q : timestamp -> Prop) (ivs : list interval) :
  Forall Q (endpoints ivs) ->
  Forall (fun iv => Q (fst iv) /\ Q (snd iv)) ivs.
Proof.
  induction ivs as [|[s e] rest IH]; simpl; intros H.
  - constructor.
  - inversion H as [|? ? Hs H']; subst. inversion H' as [|? ? He H'']; subst.
    constructor; [now split | now apply IH].
Qed.

(** Sorted endpoints give the three order properties of the intervals. *)
Lemma endpoints_sorted (ivs : list interval) :
  StronglySorted Z.lt (endpoints ivs) ->
  non_overlapping ivs /\ starts_increasing ivs
  /\ Forall (fun iv => fst iv < snd iv) ivs.
Proof.
  unfold non_overlapping, starts_increasing.
  induction ivs as [|[s e] rest IH]; simpl; intros H.
  - repeat split; constructor.
  - apply StronglySorted_inv in H as [H Hs].
    apply StronglySorted_inv in H as [H He].
    inversion Hs as [|? ? Hse Hs']; subst.
    destruct (IH H) as (N & S & W).
    apply endpoints_Forall in He. apply endpoints_Forall in Hs'.
    repeat split.
    + constructor; [|exact N].
      eapply Forall_impl; [|exact He]. simpl. intros a [? _]. exact H0.
    + constructor; [exact S|]. apply Forall_map.
      eapply Forall_impl; [|exact Hs']. simpl. intros a [? _]. exact H0.
    + constructor; [exact Hse | exact W].
Qed.

(** ** Runs of the series *)

Section Runs.

Variable check : pyfloat -> bool.

Lemma ends_failing_cons (x : sample) (pre : list sample) :
  ends_failing check pre -> ends_failing check (x :: pre).
Proof. intros (pre' & y & -> & Hy). now exists (x :: pre'), y. Qed.

Lemma ends_failing_start (x : sample) (pre : list sample) :
  check (snd x) = false ->
  pre = [] \/ ends_failing check pre ->
  ends_failing check (x :: pre).
Proof.
  intros Hx [-> | H].
  - now exists [], x.
  - now apply ends_failing_cons.
Qed.

Lemma run_in_cons (ok ok' : list sample -> Prop) (x : sample)
    (samples : list sample) (iv : interval) :
  (forall pre, ok pre -> ok' (x :: pre)) ->
  run_in check ok samples iv -> run_in check ok' (x :: samples) iv.
Proof.
  intros Hok (pre & vs & mid & ve & post & -> & Hpre & Hvs & Hmid & Hve).
  exists (x :: pre), vs, mid, ve, post. repeat split; auto.
Qed.

(** Every interval of a forward scan marks a run: one that starts after
    a failing row (or at the first row), or the one already open. *)
Lemma forward_scan_runs (samples : list sample) :
  forall opened iv,
    In iv (forward_scan check opened samples) ->
    match opened with
    | None =>
        run_in check (fun pre => pre = [] \/ ends_failing check pre)
               samples iv
    | Some s =>
        run_from check s samples iv
        \/ run_in check (ends_failing check) samples iv
    end.
Proof.
  induction samples as [|[t v] rest IH]; intros opened iv Hin.
  - destruct opened; contradiction.
  - simpl in Hin. destruct opened as [s|], (check v) eqn:Hv.
    + destruct (IH _ _ Hin) as [(Hs & mid & ve & post & -> & Hmid & Hve) | R].
      * left. split; [exact Hs|].
        exists ((t, v) :: mid), ve, post. repeat split; auto.
      * right. revert R. apply run_in_cons. apply ends_failing_cons.
    + destruct Hin as [<- | Hin].
      * left. split; [reflexivity|]. now exists [], v, rest.
      * right. generalize (IH _ _ Hin). apply run_in_cons.
        intros pre. now apply ends_failing_start.
    + destruct (IH _ _ Hin) as [(Hs & mid & ve & post & -> & Hmid & Hve) | R].
      * exists [], v, mid, ve, post. rewrite Hs. repeat split; auto.
      * revert R. apply run_in_cons. intros pre H. right.
        now apply ends_failing_cons.
    + generalize (IH _ _ Hin). apply run_in_cons. intros pre H. right.
      now apply ends_failing_start.
Qed.

(** *** Rows of an increasing series are found by their timestamp *)

Lemma increasing_split (a b : list sample) (u : sample) :
  increasing (a ++ u :: b) ->
  (forall x, In x a -> fst x < fst u) /\ (forall y, In y b -> fst u < fst y).
Proof.
  unfold increasing. induction a as [|w a IH]; simpl; intros H.
  - apply StronglySorted_inv in H as [_ H]. split; [contradiction|].
    intros y Hy. rewrite Forall_forall in H. apply H. now apply in_map.
  - apply StronglySorted_inv in H as [H Hw]. destruct (IH H) as [L R].
    split; [|exact R]. intros x [<- | Hx]; [|now apply L].
    rewrite Forall_forall in Hw. apply Hw. apply in_map, in_elt.
Qed.

Lemma increasing_tail (x : sample) (l : list sample) :
  increasing (x :: l) -> increasing l.
Proof. unfold increasing. simpl. intros H. now apply StronglySorted_inv in H. Qed.

Lemma increasing_unique (l : list sample) :
  increasing l ->
  forall a u b a' u' b',
    l = a ++ u :: b -> l = a' ++ u' :: b' -> fst u = fst u' ->
    a = a' /\ u = u' /\ b = b'.
Proof.
  intros Hl a. revert l Hl.
  induction a as [|w a IH]; intros l Hl u b a' u' b' E E' F.
  - destruct a' as [|w' a']; simpl in *.
    + rewrite E in E'. now inversion E'.
    + rewrite E in E'. inversion E'; subst.
      destruct (increasing_split [] (a' ++ u' :: b') w' Hl) as [_ R].
      specialize (R u' (in_elt _ _ _)). lia.
  - destruct a' as [|w' a']; simpl in *.
    + rewrite E in E'. inversion E'; subst.
      destruct (increasing_split [] (a ++ u :: b) u' Hl) as [_ R].
      specialize (R u (in_elt _ _ _)). lia.
    + rewrite E in E'. inversion E'; subst.
      apply increasing_tail in Hl.
      destruct (IH _ Hl u b a' u' b' eq_refl H1 F) as (-> & -> & ->).
      auto.
Qed.

(** *** From runs to the three properties of an interval *)

Lemma run_passes_inside (ok : list sample -> Prop) (samples : list sample)
    (iv : interval) :
  increasing samples -> run_in check ok samples iv ->
  passes_inside check samples iv.
Proof.
  intros Hl (pre & vs & mid & ve & post & E & _ & _ & Hmid & _) t v Hin Ht.
  pose proof Hl as Hl'. rewrite E in Hl.
  destruct (increasing_split _ _ _ Hl) as [L _].
  rewrite E, app_comm_cons, app_assoc in Hl'.
  destruct (increasing_split _ _ _ Hl') as [_ R].
  rewrite E in Hin. apply in_app_or in Hin as [Hin | [Hin | Hin]].
  - specialize (L _ Hin). simpl in L. lia.
  - inversion Hin; subst. lia.
  - apply in_app_or in Hin as [Hin | [Hin | Hin]].
    + rewrite Forall_forall in Hmid. exact (Hmid _ Hin).
    + inversion Hin; subst. lia.
    + specialize (R _ Hin). simpl in R. lia.
Qed.

Lemma run_fails_before_start (samples : list sample) (iv : interval) :
  increasing samples ->
  run_in check (fun pre => pre = [] \/ ends_failing check pre) samples iv ->
  fails_before_start check samples iv.
Proof.
  intros Hl (pre & vs & mid & ve & post & E & Hpre & _) x y (p & q & A) Hy.
  replace (p ++ x :: y :: q) with ((p ++ [x]) ++ y :: q) in A
    by now rewrite <- app_assoc.
  destruct (increasing_unique _ Hl _ _ _ _ _ _ A E Hy) as (P & _ & _).
  destruct Hpre as [-> | (pre' & x' & -> & Hx')].
  - now destruct p.
  - apply app_inj_tail in P as [_ ->]. exact Hx'.
Qed.

Lemma run_fails_at_end (ok : list sample -> Prop) (samples : list sample)
    (iv : interval) :
  increasing samples -> run_in check ok samples iv ->
  fails_at_end check samples iv.
Proof.
  intros Hl (pre & vs & mid & ve & post & E & _ & _ & _ & Hve) v Hin.
  apply in_split in Hin as (a & b & A).
  rewrite app_comm_cons, app_assoc in E.
  destruct (increasing_unique _ Hl _ _ _ _ _ _ A E eq_refl) as (_ & U & _).
  inversion U; subst. exact Hve.
Qed.

End Runs.

(** Both ends of an interval that marks a run are timestamps of rows. *)
Lemma run_in_endpoints (check : pyfloat -> bool) (ok : list sample -> Prop)
    (samples : list sample) (iv : interval) :
  run_in check ok samples iv ->
  In (fst iv) (map fst samples) /\ In (snd iv) (map fst samples).
Proof.
  intros (pre & vs & mid & ve & post & -> & _).
  split.
  - apply (in_map fst _ (fst iv, vs)), in_elt.
  - apply (in_map fst _ (snd iv, ve)).
    rewrite app_comm_cons, app_assoc. apply in_elt.
Qed.

(** ** [get_intervals] *)

(** C2: for every series and every pair of thresholds, the list emitted by
    the loop of [get_intervals] is the result of the single forward scan,
    which opens at the first passing sample, closes at the first later
    failing sample and drops an interval still open at the end. *)
Theorem emitted_is_forward_scan (low high : option pyfloat)
    (samples : list sample) :
  emitted low high samples
  = forward_scan (check_interval low high) None samples.
Proof. unfold emitted. apply loop_forward_scan. Qed.

Lemma two_humps_increasing : increasing two_humps.
Proof.
  unfold increasing. simpl.
  repeat (constructor; [|repeat (constructor; try lia)]). constructor.
Qed.

(** C3 as stated fails: in [two_humps] with the lower threshold 5.0 the
    interval (0, 60) is emitted, and the row just after its end, at 120,
    passes the test. *)
Lemma after_end_may_pass :
  increasing two_humps /\
  ~ (forall iv, In iv (emitted (Some 5%float) None two_humps) ->
                brackets_run (check_interval (Some 5%float) None)
                             two_humps iv).
Proof.
  split; [exact two_humps_increasing|].
  intros H. destruct (H (0, 60)) as (_ & _ & A); [now left|].
  specialize (A (60, 1%float) (120, 6%float)).
  assert (B : adjacent two_humps (60, 1%float) (120, 6%float))
    by now exists [(0, 6%float)], [(180, 1%float)].
  specialize (A B eq_refl). discriminate A.
Qed.

(** C3, amended: in a series with increasing timestamps, for every pair of
    thresholds and every emitted interval, the test passes at every row
    strictly inside the interval, fails at the row just before the
    interval's start (when there is one), and fails at the row of the
    interval's end itself. *)
Theorem emitted_brackets (low high : option pyfloat) (samples : list sample)
    (iv : interval) :
  increasing samples ->
  In iv (emitted low high samples) ->
  passes_inside (check_interval low high) samples iv
  /\ fails_before_start (check_interval low high) samples iv
  /\ fails_at_end (check_interval low high) samples iv.
Proof.
  intros Hl Hin. unfold emitted in Hin. rewrite loop_forward_scan in Hin.
  apply forward_scan_runs in Hin. repeat split.
  - eapply run_passes_inside; eauto.
  - now apply run_fails_before_start.
  - eapply run_fails_at_end; eauto.
Qed.

Lemma emitted_brackets_witness :
  increasing two_humps
  /\ In (0, 60) (emitted (Some 5%float) None two_humps)
  /\ passes_inside (check_interval (Some 5%float) None) two_humps (0, 60)
  /\ fails_before_start (check_interval (Some 5%float) None) two_humps (0, 60)
  /\ fails_at_end (check_interval (Some 5%float) None) two_humps (0, 60).
Proof.
  assert (H : In (0, 60) (emitted (Some 5%float) None two_humps))
    by (left; reflexivity).
  split; [exact two_humps_increasing|]. split; [exact H|].
  exact (emitted_brackets (Some 5%float) None two_humps (0, 60)
                          two_humps_increasing H).
Defined.

(** C5: for every series with increasing timestamps and every pair of
    thresholds, the emitted intervals are pairwise non-overlapping (each
    ends before every later one starts), their start times are strictly
    increasing, and each has its start before its end. *)
Theorem emitted_ordered (low high : option pyfloat) (samples : list sample) :
  increasing samples ->
  non_overlapping (emitted low high samples)
  /\ starts_increasing (emitted low high samples)
  /\ Forall (fun iv => fst iv < snd iv) (emitted low high samples).
Proof.
  intros Hl. apply endpoints_sorted.
  unfold emitted. rewrite loop_forward_scan.
  destruct samples as [|[t v] rest].
  - constructor.
  - apply (forward_scan_endpoints _ _ Hl None (t - 1)); [|exact I].
    unfold increasing in Hl. simpl in *.
    apply StronglySorted_inv in Hl as [_ Hl].
    constructor; [lia|].
    eapply Forall_impl; [|exact Hl]. simpl. intros; lia.
Qed.

Lemma emitted_ordered_witness :
  increasing two_humps
  /\ non_overlapping (emitted (Some 5%float) None two_humps)
  /\ starts_increasing (emitted (Some 5%float) None two_humps)
  /\ Forall (fun iv => fst iv < snd iv) (emitted (Some 5%float) None two_humps).
Proof.
  split; [exact two_humps_increasing|].
  exact (emitted_ordered (Some 5%float) None two_humps two_humps_increasing).
Defined.

(** C6: if the test passes at every sample of the interpolated series,
    no interval is emitted. *)
Theorem emitted_all_pass (low high : option pyfloat) (samples : list sample) :
  Forall (fun tv => check_interval low high (snd tv) = true) samples ->
  emitted low high samples = [].
Proof.
  intros H. unfold emitted. rewrite loop_forward_scan.
  now apply forward_scan_all_pass.
Qed.

Lemma emitted_all_pass_witness :
  Forall (fun tv => check_interval (Some 5%float) None (snd tv) = true)
         [(0, 6%float); (60, 7%float)]
  /\ emitted (Some 5%float) None [(0, 6%float); (60, 7%float)] = [].
Proof.
  assert (H : Forall (fun tv => check_interval (Some 5%float) None (snd tv) = true)
                     [(0, 6%float); (60, 7%float)])
    by (repeat constructor).
  split; [exact H|].
  exact (emitted_all_pass (Some 5%float) None _ H).
Defined.

(** C10: [get_intervals] writes the field [intervals] only: whatever the
    starting state, the nine other fields are as before; when there is an
    interpolated series the call returns and both ends of every emitted
    interval are timestamps of rows of that series, and when there is none
    the object is left as it was. *)
Theorem get_intervals_frame (self : TidePredictor) :
  let self' := fst (get_intervals self) in
  station_id self' = station_id self
  /\ begin_date self' = begin_date self
  /\ end_date self' = end_date self
  /\ units self' = units self
  /\ low self' = low self
  /\ high self' = high self
  /\ tides self' = tides self
  /\ interpolated_tides self' = interpolated_tides self
  /\ station_info self' = station_info self
  /\ match interpolated_tides self with
     | Some df =>
         snd (get_intervals self) = Returned
         /\ exists ivs,
              intervals self' = Some ivs
              /\ Forall (fun iv => In (fst iv) (map fst df)
                                   /\ In (snd iv) (map fst df)) ivs
     | None => self' = self
     end.
Proof.
  unfold get_intervals.
  destruct (interpolated_tides self) as [df|] eqn:E; simpl;
    repeat (split; [reflexivity || (symmetry; exact E) || exact E|]).
  - eexists. split; [reflexivity|].
    apply Forall_forall. intros iv Hin.
    unfold emitted in Hin. rewrite loop_forward_scan in Hin.
    apply forward_scan_runs in Hin. eapply run_in_endpoints; eauto.
  - reflexivity.
Qed.

(** ** [get_tide_predictions] *)

(** C7 as stated fails: when the service answers 404 the call returns
    normally, no error reaches the caller. *)
Lemma fetch_404_returns :
  status_code (not_found (mkRequest base_url (prediction_params demo))) <> 200
  /\ ~ (exists e,
          ended (get_tide_predictions not_found no_rows demo) = Raised e).
Proof.
  split.
  - discriminate.
  - intros [e H]. discriminate H.
Qed.

(** C7, amended: whenever the remote prediction call does not return
    status 200, the fetcher raises nothing: it returns normally with the
    field [tides] set to [None] and the other fields as they were, after
    exactly one request (no retry). *)
Theorem get_tide_predictions_failure
    (remote : request -> response)
    (decode : string -> option (list sample)
              -> option (list sample) * outcome)
    (self : TidePredictor) :
  status_code (remote (mkRequest base_url (prediction_params self))) <> 200 ->
  let r := get_tide_predictions remote decode self in
  ended r = Returned
  /\ after r = set_tides self None
  /\ sent r = [mkRequest base_url (prediction_params self)].
Proof.
  intros H. unfold get_tide_predictions.
  apply Z.eqb_neq in H. rewrite H. simpl. repeat split.
Qed.

Lemma get_tide_predictions_failure_witness :
  status_code (not_found (mkRequest base_url (prediction_params demo))) <> 200
  /\ ended (get_tide_predictions not_found no_rows demo) = Returned
  /\ after (get_tide_predictions not_found no_rows demo) = set_tides demo None
  /\ sent (get_tide_predictions not_found no_rows demo)
     = [mkRequest base_url (prediction_params demo)].
Proof.
  assert (H : status_code
                (not_found (mkRequest base_url (prediction_params demo)))
              <> 200) by discriminate.
  split; [exact H|].
  exact (get_tide_predictions_failure not_found no_rows demo H).
Defined.

(** The fetcher sends one request whatever the answer. *)
Lemma get_tide_predictions_one_request
    (remote : request -> response)
    (decode : string -> option (list sample)
              -> option (list sample) * outcome)
    (self : TidePredictor) :
  List.length (sent (get_tide_predictions remote decode self)) = 1%nat.
Proof.
  unfold get_tide_predictions.
  destruct (status_code _ =? 200); [destruct (decode _ _)|]; reflexivity.
Qed.

(** ** [create_ical_file] *)

Section ExportFacts.

Variable float_str : pyfloat -> string.

(** The event the loop adds for one interval. *)
Lemma add_event_loop (station_name : string) (low high : option pyfloat)
    (tz : Z) (ivs : list interval) :
  forall c,
    fold_left (add_event float_str station_name low high tz) ivs c
    = c ++ map (fun iv =>
                  mkEvent (summary_text float_str station_name low high)
                          (replace_tzinfo (fst iv) tz)
                          (replace_tzinfo (snd iv) tz)) ivs.
Proof.
  induction ivs as [|[s e] rest IH]; intros c; simpl.
  - now rewrite app_nil_r.
  - rewrite IH, <- app_assoc. reflexivity.
Qed.

Lemma summary_contains_name (station_name : string)
    (low high : option pyfloat) :
  contains station_name (summary_text float_str station_name low high).
Proof. exists EmptyString. eexists. reflexivity. Qed.

Lemma string_app_assoc (a b c : string) :
  ((a ++ b) ++ c = a ++ b ++ c)%string.
Proof. induction a as [|x a IH]; simpl; [reflexivity | now rewrite IH]. Qed.

Lemma summary_contains_low (station_name : string)
    (low high : option pyfloat) :
  contains (format_threshold float_str low)
           (summary_text float_str station_name low high).
Proof.
  exists (station_name ++ " min ")%string. eexists.
  unfold summary_text. now rewrite string_app_assoc.
Qed.

Lemma summary_contains_high (station_name : string)
    (low high : option pyfloat) :
  contains (format_threshold float_str high)
           (summary_text float_str station_name low high).
Proof.
  exists (station_name ++ " min " ++ format_threshold float_str low
            ++ " max ")%string, EmptyString.
  unfold summary_text. rewrite !string_app_assoc. simpl.
  repeat f_equal.
  induction (format_threshold float_str high) as [|x a IH]; simpl;
    [reflexivity | now rewrite <- IH].
Qed.

End ExportFacts.

(** C9: with a station record that holds a name, for every list of N
    intervals the exporter returns, and the calendar it serializes holds
    exactly N events, one per interval and in the order of the intervals;
    the DTSTART and DTEND of an event are the start and the end of its
    interval with a zero offset from UTC attached, and its SUMMARY
    contains the station's name and the texts of the low and high
    thresholds. *)
Theorem create_ical_file_events
    (float_str : pyfloat -> string) (to_ical : Calendar -> string)
    (b64encode : string -> string)
    (self : TidePredictor) (first : pydict) (others : list pydict)
    (station_name : string) (ivs : list interval) :
  station_info self = Some (first :: others) ->
  dict_get first "name" = Some station_name ->
  intervals self = Some ivs ->
  exists out,
    create_ical_file float_str to_ical b64encode self = inr out
    /\ ics_file out = to_ical (cal out)
    /\ List.length (cal out) = List.length ivs
    /\ forall i s e,
         nth_error ivs i = Some (s, e) ->
         exists ev,
           nth_error (cal out) i = Some ev
           /\ dtstart ev = mkAware s 0
           /\ dtend ev = mkAware e 0
           /\ contains station_name (summary ev)
           /\ contains (format_threshold float_str (low self)) (summary ev)
           /\ contains (format_threshold float_str (high self)) (summary ev).
Proof.
  intros Hinfo Hname Hivs. unfold create_ical_file.
  rewrite Hinfo, Hname, Hivs. eexists. split; [reflexivity|]. simpl.
  rewrite add_event_loop. simpl.
  split; [reflexivity|]. split; [apply length_map|].
  intros i s e Hi. eexists. split.
  - apply map_nth_error. exact Hi.
  - simpl. repeat split.
    + apply summary_contains_name.
    + apply summary_contains_low.
    + apply summary_contains_high.
Qed.

Lemma create_ical_file_events_witness :
  exists out,
    create_ical_file demo_float_str demo_to_ical demo_b64encode demo_scanned
    = inr out
    /\ ics_file out = demo_to_ical (cal out)
    /\ List.length (cal out) = 2%nat
    /\ forall i s e,
         nth_error [(0, 60); (120, 180)] i = Some (s, e) ->
         exists ev,
           nth_error (cal out) i = Some ev
           /\ dtstart ev = mkAware s 0
           /\ dtend ev = mkAware e 0
           /\ contains "Nanoose Bay" (summary ev)
           /\ contains "5.0" (summary ev)
           /\ contains "None" (summary ev).
Proof.
  exact (create_ical_file_events demo_float_str demo_to_ical demo_b64encode
           demo_scanned _ _ "Nanoose Bay" [(0, 60); (120, 180)]
           eq_refl eq_refl eq_refl).
Defined.

Example create_ical_file_demo :
  option_map (fun out => map summary (cal out))
    (match create_ical_file demo_float_str demo_to_ical demo_b64encode
             demo_scanned with
     | inr out => Some out
     | inl _ => None
     end)
  = Some ["Nanoose Bay min 5.0 max None"; "Nanoose Bay min 5.0 max None"]%string.
Proof. reflexivity. Qed.

(** Without a station record the exporter raises before any event is
    built. *)
Example create_ical_file_no_station :
  create_ical_file demo_float_str demo_to_ical demo_b64encode
    (init "TWC0419" "20240101" "20240102" "metric" None None)
  = inl TypeError.
Proof. reflexivity. Qed.

(** ** [interpolate_tides] *)

(** The method checks nothing itself: without a fetched series it raises
    on the subscript, and otherwise it ends the way the pandas call does,
    writing the field [interpolated_tides] only when that call returns. *)
Lemma interpolate_tides_defers
    (resample_interpolate : list sample -> pyexc + list sample)
    (self : TidePredictor) :
  interpolate_tides resample_interpolate self
  = match tides self with
    | None => (self, Raised TypeError)
    | Some df =>
        match resample_interpolate df with
        | inl e => (self, Raised e)
        | inr rows => (set_interpolated_tides self (Some rows), Returned)
        end
    end.
Proof. reflexivity. Qed.

(** * Further properties *)

(** ** The threshold test *)

(** X1: for all thresholds and heights, [check_interval] is the table of
    set and unset cases applied to the thresholds that pass the truth
    test: a threshold equal to zero counts as unset. *)
Theorem check_interval_effective (low high : option pyfloat) (v : pyfloat) :
  check_interval low high v
  = threshold_spec (effective low) (effective high) v.
Proof.
  unfold check_interval, effective.
  destruct low as [l|], high as [h|]; simpl;
    repeat match goal with
           | |- context [PrimFloat.eqb ?x ?y] =>
               destruct (PrimFloat.eqb x y); simpl
           end;
    try reflexivity.
  apply andb_comm.
Qed.

(** ** The scan of [get_intervals] *)

Section ScanMore.

Variable check : pyfloat -> bool.

Lemma loop_app (l1 l2 : list sample) :
  fst (loop check (l1 ++ l2))
  = fst (loop check l1) ++ forward_scan check (snd (loop check l1)) l2.
Proof.
  unfold loop. rewrite fold_left_app.
  destruct (fold_left (loop_body check) l1 ([], None)) as [ivs start].
  apply fold_loop_body.
Qed.

(** Closing an interval uses up two rows: the one that opened it and the
    one that closes it. *)
Lemma forward_scan_length (samples : list sample) :
  forall opened,
    (2 * List.length (forward_scan check opened samples)
     <= List.length samples
        + match opened with Some _ => 1 | None => 0 end)%nat.
Proof.
  induction samples as [|[t v] rest IH]; intros opened; simpl.
  - lia.
  - destruct opened as [s|], (check v); simpl.
    + specialize (IH (Some s)). simpl in IH. lia.
    + specialize (IH None). simpl in IH. lia.
    + specialize (IH (Some t)). simpl in IH. lia.
    + specialize (IH None). simpl in IH. lia.
Qed.

(** Once an interval is open, a later failing row closes it. *)
Lemma forward_scan_closes (l2 l3 : list sample) (t' : timestamp)
    (v' : pyfloat) :
  check v' = false ->
  forall s, forward_scan check (Some s) (l2 ++ (t', v') :: l3) <> [].
Proof.
  intros Hv'. induction l2 as [|[t v] l2 IH]; intros s; simpl.
  - rewrite Hv'. discriminate.
  - destruct (check v); [apply IH | discriminate].
Qed.

(** What a later part of the series emits is emitted whatever came
    before. *)
Lemma forward_scan_later (l1 rest : list sample) :
  (forall opened, forward_scan check opened rest <> []) ->
  forall opened, forward_scan check opened (l1 ++ rest) <> [].
Proof.
  intros H. induction l1 as [|[t v] l1 IH]; intros opened; simpl.
  - apply H.
  - destruct opened as [s|], (check v); try apply IH. discriminate.
Qed.

Lemma forward_scan_pass_then_fail (l1 l2 l3 : list sample)
    (t t' : timestamp) (v v' : pyfloat) :
  check v = true -> check v' = false ->
  forward_scan check None (l1 ++ (t, v) :: l2 ++ (t', v') :: l3) <> [].
Proof.
  intros Hv Hv'. apply forward_scan_later. intros opened. simpl.
  rewrite Hv. destruct opened; now apply forward_scan_closes.
Qed.

End ScanMore.

(** X2: the intervals emitted for a series are kept, in front, when rows
    are appended to the series; what is added is the scan of the new rows
    from the start left open, if any. *)
Theorem emitted_app (low high : option pyfloat) (l1 l2 : list sample) :
  emitted low high (l1 ++ l2)
  = emitted low high l1
    ++ forward_scan (check_interval low high)
                    (snd (loop (check_interval low high) l1)) l2.
Proof. unfold emitted. apply loop_app. Qed.

(** X3: rows appended at the end that all pass the test add no interval:
    a trailing run is dropped however long it is. *)
Theorem emitted_trailing_run (low high : option pyfloat)
    (l1 l2 : list sample) :
  Forall (fun tv => check_interval low high (snd tv) = true) l2 ->
  emitted low high (l1 ++ l2) = emitted low high l1.
Proof.
  intros H. unfold emitted. rewrite loop_app.
  rewrite (forward_scan_all_pass _ _ H). apply app_nil_r.
Qed.

Lemma emitted_trailing_run_witness :
  Forall (fun tv => check_interval (Some 5%float) None (snd tv) = true)
         [(240, 6%float); (300, 7%float)]
  /\ emitted (Some 5%float) None
             (two_humps ++ [(240, 6%float); (300, 7%float)])
     = emitted (Some 5%float) None two_humps.
Proof.
  assert (H : Forall (fun tv => check_interval (Some 5%float) None (snd tv)
                                = true)
                     [(240, 6%float); (300, 7%float)])
    by (repeat constructor).
  split; [exact H|].
  exact (emitted_trailing_run (Some 5%float) None two_humps _ H).
Defined.

(** X4: there are at most half as many intervals as rows. *)
Theorem emitted_count (low high : option pyfloat) (samples : list sample) :
  (2 * List.length (emitted low high samples) <= List.length samples)%nat.
Proof.
  unfold emitted. rewrite loop_forward_scan.
  pose proof (forward_scan_length (check_interval low high) samples None)
    as H.
  cbv beta iota in H. lia.
Qed.

(** X5: at least one interval is emitted exactly when some row that
    passes the test is followed, directly or later, by a row that fails
    it. *)
Theorem emitted_nonempty_iff (low high : option pyfloat)
    (samples : list sample) :
  emitted low high samples <> []
  <-> exists l1 t v l2 t' v' l3,
        samples = l1 ++ (t, v) :: l2 ++ (t', v') :: l3
        /\ check_interval low high v = true
        /\ check_interval low high v' = false.
Proof.
  unfold emitted. rewrite loop_forward_scan. split.
  - intros H.
    destruct (forward_scan (check_interval low high) None samples)
      as [|iv ivs] eqn:E; [contradiction|].
    assert (Hin : In iv (forward_scan (check_interval low high) None samples))
      by (rewrite E; now left).
    apply forward_scan_runs in Hin
      as (pre & vs & mid & ve & post & -> & _ & Hvs & _ & Hve).
    now exists pre, (fst iv), vs, mid, (snd iv), ve, post.
  - intros (l1 & t & v & l2 & t' & v' & l3 & -> & Hv & Hv').
    now apply forward_scan_pass_then_fail.
Qed.

(** X6: whatever the order of the timestamps, every emitted interval
    starts at the timestamp of a row that passes the test and ends at the
    timestamp of a row that fails it. *)
Theorem emitted_start_passes_end_fails (low high : option pyfloat)
    (samples : list sample) (iv : interval) :
  In iv (emitted low high samples) ->
  (exists v, In (fst iv, v) samples /\ check_interval low high v = true)
  /\ (exists v, In (snd iv, v) samples /\ check_interval low high v = false).
Proof.
  unfold emitted. rewrite loop_forward_scan. intros Hin.
  apply forward_scan_runs in Hin
    as (pre & vs & mid & ve & post & -> & _ & Hvs & _ & Hve).
  split.
  - exists vs. split; [apply in_elt | exact Hvs].
  - exists ve. split; [|exact Hve].
    rewrite app_comm_cons, app_assoc. apply in_elt.
Qed.

Lemma emitted_start_passes_end_fails_witness :
  In (120, 180) (emitted (Some 5%float) None two_humps)
  /\ (exists v, In (120, v) two_humps
                /\ check_interval (Some 5%float) None v = true)
  /\ (exists v, In (180, v) two_humps
                /\ check_interval (Some 5%float) None v = false).
Proof.
  assert (H : In (120, 180) (emitted (Some 5%float) None two_humps))
    by (right; left; reflexivity).
  split; [exact H|].
  exact (emitted_start_passes_end_fails (Some 5%float) None two_humps
                                        (120, 180) H).
Defined.

(** X7: calling [get_intervals] a second time changes nothing: the object
    and the way the call ends are those of the first call. *)
Theorem get_intervals_twice (self : TidePredictor) :
  get_intervals (fst (get_intervals self)) = get_intervals self.
Proof.
  unfold get_intervals.
  destruct (interpolated_tides self) as [df|] eqn:E; simpl.
  - reflexivity.
  - now rewrite E.
Qed.

(** ** [create_ical_file] *)

Section ExportMore.

Variable float_str : pyfloat -> string.
Variable to_ical : Calendar -> string.
Variable b64encode : string -> string.

(** The calendar built for a station name and a list of intervals. *)
Lemma create_ical_file_cal (self : TidePredictor) (out : exported)
    (ivs : list interval) :
  create_ical_file float_str to_ical b64encode self = inr out ->
  intervals self = Some ivs ->
  exists station_name,
    cal out
    = map (fun iv =>
             mkEvent (summary_text float_str station_name
                                   (low self) (high self))
                     (replace_tzinfo (fst iv) 0)
                     (replace_tzinfo (snd iv) 0)) ivs.
Proof.
  unfold create_ical_file. intros H Hivs.
  destruct (station_info self) as [[|first others]|]; try discriminate.
  destruct (dict_get first "name") as [station_name|]; try discriminate.
  rewrite Hivs in H. inversion H; subst; clear H. simpl.
  exists station_name. now rewrite add_event_loop.
Qed.

End ExportMore.

(** The endpoints emitted for an increasing series are increasing. *)
Lemma emitted_endpoints_sorted (low high : option pyfloat)
    (samples : list sample) :
  increasing samples ->
  StronglySorted Z.lt (endpoints (emitted low high samples)).
Proof.
  intros Hl. unfold emitted. rewrite loop_forward_scan.
  destruct samples as [|[t v] rest].
  - constructor.
  - apply (forward_scan_endpoints _ _ Hl None (t - 1)); [|exact I].
    unfold increasing in Hl. simpl in *.
    apply StronglySorted_inv in Hl as [_ Hl].
    constructor; [lia|].
    eapply Forall_impl; [|exact Hl]. simpl. intros; lia.
Qed.

(** X8: the exporter returns exactly when the object holds a nonempty
    list of station records whose first record has a name, and a list of
    intervals; in every other state it raises. *)
Theorem create_ical_file_returns_iff
    (float_str : pyfloat -> string) (to_ical : Calendar -> string)
    (b64encode : string -> string) (self : TidePredictor) :
  (exists out, create_ical_file float_str to_ical b64encode self = inr out)
  <-> exists first others station_name ivs,
        station_info self = Some (first :: others)
        /\ dict_get first "name" = Some station_name
        /\ intervals self = Some ivs.
Proof.
  unfold create_ical_file. split.
  - intros [out H].
    destruct (station_info self) as [[|first others]|]; try discriminate.
    destruct (dict_get first "name") as [station_name|] eqn:N;
      try discriminate.
    destruct (intervals self) as [ivs|]; try discriminate.
    now exists first, others, station_name, ivs.
  - intros (first & others & station_name & ivs & -> & -> & ->).
    eexists. reflexivity.
Qed.

(** X9: the exception of the exporter tells what is missing, the station
    records being looked at first: [TypeError] for no station records at
    all or, with a named first record, for no intervals; [IndexError] for
    an empty list of records; [KeyError] for a first record without a
    name. *)
Theorem create_ical_file_raises
    (float_str : pyfloat -> string) (to_ical : Calendar -> string)
    (b64encode : string -> string) (self : TidePredictor) (e : pyexc) :
  create_ical_file float_str to_ical b64encode self = inl e ->
  (e = TypeError /\ station_info self = None)
  \/ (e = IndexError /\ station_info self = Some [])
  \/ (e = KeyError
      /\ exists first others,
           station_info self = Some (first :: others)
           /\ dict_get first "name" = None)
  \/ (e = TypeError
      /\ intervals self = None
      /\ exists first others station_name,
           station_info self = Some (first :: others)
           /\ dict_get first "name" = Some station_name).
Proof.
  unfold create_ical_file. intros H.
  destruct (station_info self) as [[|first others]|].
  - right. left. now inversion H.
  - destruct (dict_get first "name") as [station_name|] eqn:N.
    + destruct (intervals self) as [ivs|]; [discriminate|].
      right. right. right. inversion H.
      repeat split. now exists first, others, station_name.
    + right. right. left. inversion H. split; [reflexivity|].
      now exists first, others.
  - left. now inversion H.
Qed.

Lemma create_ical_file_raises_witness :
  create_ical_file demo_float_str demo_to_ical demo_b64encode demo
  = inl TypeError
  /\ ((TypeError = TypeError /\ station_info demo = None)
      \/ (TypeError = IndexError /\ station_info demo = Some [])
      \/ (TypeError = KeyError
          /\ exists first others,
               station_info demo = Some (first :: others)
               /\ dict_get first "name" = None)
      \/ (TypeError = TypeError
          /\ intervals demo = None
          /\ exists first others station_name,
               station_info demo = Some (first :: others)
               /\ dict_get first "name" = Some station_name)).
Proof.
  split; [reflexivity|].
  exact (create_ical_file_raises demo_float_str demo_to_ical demo_b64encode
           demo TypeError eq_refl).
Defined.

(** X10: nothing of the intervals is lost in the calendar: reading the
    start and end of each event back gives the list of intervals, every
    time carries the offset zero, and all events have the same summary. *)
Theorem create_ical_file_reads_back
    (float_str : pyfloat -> string) (to_ical : Calendar -> string)
    (b64encode : string -> string) (self : TidePredictor)
    (out : exported) (ivs : list interval) :
  create_ical_file float_str to_ical b64encode self = inr out ->
  intervals self = Some ivs ->
  map event_span (cal out) = ivs
  /\ Forall (fun ev => utcoffset (dtstart ev) = 0
                       /\ utcoffset (dtend ev) = 0) (cal out)
  /\ exists text, Forall (fun ev => summary ev = text) (cal out).
Proof.
  intros H Hivs.
  destruct (create_ical_file_cal _ _ _ _ _ _ H Hivs) as [station_name ->].
  split; [|split].
  - rewrite map_map. unfold event_span. simpl.
    rewrite <- (map_id ivs) at 2. apply map_ext. now intros [s e].
  - apply Forall_map, Forall_forall. now intros iv _.
  - exists (summary_text float_str station_name (low self) (high self)).
    apply Forall_map, Forall_forall. now intros iv _.
Qed.

Lemma create_ical_file_reads_back_witness :
  exists out,
    create_ical_file demo_float_str demo_to_ical demo_b64encode demo_scanned
    = inr out
    /\ intervals demo_scanned = Some [(0, 60); (120, 180)]
    /\ map event_span (cal out) = [(0, 60); (120, 180)]
    /\ Forall (fun ev => utcoffset (dtstart ev) = 0
                         /\ utcoffset (dtend ev) = 0) (cal out)
    /\ exists text, Forall (fun ev => summary ev = text) (cal out).
Proof.
  eexists. split; [reflexivity|]. split; [reflexivity|].
  exact (create_ical_file_reads_back demo_float_str demo_to_ical
           demo_b64encode demo_scanned _ [(0, 60); (120, 180)]
           eq_refl eq_refl).
Defined.

(** X11: [get_intervals] followed by [create_ical_file], on an
    interpolated series with increasing timestamps: every event starts
    before it ends, and every event ends before each later event
    starts. *)
Theorem scanned_events_ordered
    (float_str : pyfloat -> string) (to_ical : Calendar -> string)
    (b64encode : string -> string) (self : TidePredictor)
    (df : list sample) (out : exported) :
  interpolated_tides self = Some df ->
  increasing df ->
  create_ical_file float_str to_ical b64encode (fst (get_intervals self))
  = inr out ->
  Forall (fun ev => wall (dtstart ev) < wall (dtend ev)) (cal out)
  /\ ForallOrdPairs (fun a b => wall (dtend a) < wall (dtstart b)) (cal out).
Proof.
  intros Hdf Hinc H.
  assert (Hivs : intervals (fst (get_intervals self))
                 = Some (emitted (low self) (high self) df))
    by (unfold get_intervals; now rewrite Hdf).
  destruct (create_ical_file_cal _ _ _ _ _ _ H Hivs) as [station_name ->].
  destruct (endpoints_sorted _ (emitted_endpoints_sorted (low self) (high self)
                                  df Hinc)) as (N & _ & W).
  unfold non_overlapping in N.
  split.
  - apply Forall_map. exact W.
  - clear W H Hivs. induction N as [|iv ivs Hiv N IH]; simpl.
    + constructor.
    + constructor; [|exact IH]. apply Forall_map. exact Hiv.
Qed.

Lemma scanned_events_ordered_witness :
  exists out,
    interpolated_tides demo = Some two_humps
    /\ increasing two_humps
    /\ create_ical_file demo_float_str demo_to_ical demo_b64encode
                        (fst (get_intervals demo)) = inr out
    /\ Forall (fun ev => wall (dtstart ev) < wall (dtend ev)) (cal out)
    /\ ForallOrdPairs (fun a b => wall (dtend a) < wall (dtstart b))
                      (cal out).
Proof.
  eexists. split; [reflexivity|]. split; [exact two_humps_increasing|].
  split; [reflexivity|].
  exact (scanned_events_ordered demo_float_str demo_to_ical demo_b64encode
           demo two_humps _ eq_refl two_humps_increasing eq_refl).
Defined.

(** ** The two requests of the class *)

(** X12: whatever the service answers, [get_tide_predictions] sends
    exactly one request, the one for the hilo predictions of the station,
    and writes no field but [tides]. *)
Theorem get_tide_predictions_frame
    (remote : request -> response)
    (decode : string -> option (list sample)
              -> option (list sample) * outcome)
    (self : TidePredictor) :
  let r := get_tide_predictions remote decode self in
  sent r = [mkRequest base_url (prediction_params self)]
  /\ station_id (after r) = station_id self
  /\ begin_date (after r) = begin_date self
  /\ end_date (after r) = end_date self
  /\ units (after r) = units self
  /\ low (after r) = low self
  /\ high (after r) = high self
  /\ interpolated_tides (after r) = interpolated_tides self
  /\ intervals (after r) = intervals self
  /\ station_info (after r) = station_info self.
Proof.
  unfold get_tide_predictions.
  destruct (status_code _ =? 200); [destruct (decode _ _)|];
    simpl; repeat split.
Qed.

(** X13: when the station request does not return status 200,
    [get_station_info] prints the failure line and returns with the
    object as it was: the station records it held before are kept. *)
Theorem get_station_info_failure
    (remote : request -> response)
    (stations_of : string -> pyexc + list pydict)
    (self : TidePredictor) :
  status_code (remote (mkRequest (station_endpoint self) [])) <> 200 ->
  let g := get_station_info remote stations_of self in
  info_after g = self
  /\ info_ended g = Returned
  /\ info_printed g = [station_failure]
  /\ info_sent g = [mkRequest (station_endpoint self) []].
Proof.
  intros H. unfold get_station_info.
  apply Z.eqb_neq in H. rewrite H. simpl. repeat split.
Qed.

Lemma get_station_info_failure_witness :
  status_code (not_found (mkRequest (station_endpoint demo) [])) <> 200
  /\ info_after (get_station_info not_found demo_stations demo) = demo
  /\ info_ended (get_station_info not_found demo_stations demo) = Returned
  /\ info_printed (get_station_info not_found demo_stations demo)
     = [station_failure]
  /\ info_sent (get_station_info not_found demo_stations demo)
     = [mkRequest (station_endpoint demo) []].
Proof.
  assert (H : status_code (not_found (mkRequest (station_endpoint demo) []))
              <> 200) by discriminate.
  split; [exact H|].
  exact (get_station_info_failure not_found demo_stations demo H).
Defined.

(** X14: whatever the service answers, [get_station_info] sends exactly
    one request, without parameters, to the address of the station, and
    writes no field but [station_info] (putting the old value of that
    field back gives the object as it was), which changes only on status
    200 with a readable body, to the records of that body. *)
Theorem get_station_info_frame
    (remote : request -> response)
    (stations_of : string -> pyexc + list pydict)
    (self : TidePredictor) :
  let req := mkRequest (station_endpoint self) [] in
  let g := get_station_info remote stations_of self in
  info_sent g = [req]
  /\ set_station_info (info_after g) (station_info self) = self
  /\ (station_info (info_after g) = station_info self
      \/ exists stations,
           status_code (remote req) = 200
           /\ stations_of (text (remote req)) = inr stations
           /\ station_info (info_after g) = Some stations).
Proof.
  assert (R : set_station_info self (station_info self) = self)
    by now destruct self.
  unfold get_station_info. simpl.
  destruct (status_code _ =? 200) eqn:S.
  - apply Z.eqb_eq in S.
    destruct (stations_of _) as [e|stations] eqn:D; simpl;
      repeat split; auto.
    right. now exists stations.
  - simpl. repeat split; auto.
Qed.

(** ** [run] *)

Section RunFacts.

Variable remote : request -> response.
Variable decode : string -> option (list sample)
                  -> option (list sample) * outcome.
Variable resample_interpolate : list sample -> pyexc + list sample.
Variable stations_of : string -> pyexc + list pydict.
Variable float_str : pyfloat -> string.
Variable to_ical : Calendar -> string.
Variable b64encode : string -> string.

Lemma interpolate_tides_station_id (s : TidePredictor) :
  station_id (fst (interpolate_tides resample_interpolate s)) = station_id s.
Proof.
  unfold interpolate_tides.
  destruct (tides s); [destruct (resample_interpolate _)|]; reflexivity.
Qed.

Lemma get_intervals_station_id (s : TidePredictor) :
  station_id (fst (get_intervals s)) = station_id s.
Proof. unfold get_intervals. now destruct (interpolated_tides s). Qed.

Lemma station_endpoint_ext (s s' : TidePredictor) :
  station_id s = station_id s' -> station_endpoint s = station_endpoint s'.
Proof. unfold station_endpoint. now intros ->. Qed.

(** The state in which [run] reaches [get_station_info], when the three
    steps before it return. *)
Lemma run_reaches_station (self : TidePredictor) (df rows : list sample) :
  status_code (remote (mkRequest base_url (prediction_params self))) = 200 ->
  decode (text (remote (mkRequest base_url (prediction_params self))))
         (tides self) = (Some df, Returned) ->
  resample_interpolate df = inr rows ->
  run remote decode resample_interpolate stations_of float_str to_ical
      b64encode self
  = let s2 :=
      mkTidePredictor (station_id self) (begin_date self) (end_date self)
        (units self) (low self) (high self) (Some df) (Some rows)
        (Some (emitted (low self) (high self) rows)) (station_info self) in
    let g := get_station_info remote stations_of s2 in
    let rs := [mkRequest base_url (prediction_params self)] ++ info_sent g in
    match info_ended g with
    | Raised e => mkRan (info_after g) (Raised e) rs (info_printed g) None
    | Returned =>
        match create_ical_file float_str to_ical b64encode (info_after g) with
        | inl e => mkRan (info_after g) (Raised e) rs (info_printed g) None
        | inr out =>
            mkRan (info_after g) Returned rs (info_printed g) (Some out)
        end
    end.
Proof.
  intros S D L. unfold run, get_tide_predictions.
  apply Z.eqb_eq in S. rewrite S, D. simpl.
  unfold interpolate_tides. simpl. rewrite L. reflexivity.
Qed.

End RunFacts.

Lemma get_tide_predictions_sent
    (remote : request -> response)
    (decode : string -> option (list sample)
              -> option (list sample) * outcome)
    (self : TidePredictor) :
  sent (get_tide_predictions remote decode self)
  = [mkRequest base_url (prediction_params self)]
  /\ station_id (after (get_tide_predictions remote decode self))
     = station_id self.
Proof.
  unfold get_tide_predictions.
  destruct (status_code _ =? 200); [destruct (decode _ _)|]; now split.
Qed.

(** X15: when the prediction request does not return status 200, [run]
    ends in [interpolate_tides] with a [TypeError]: [tides] is [None], no
    station request is sent, nothing is printed and no calendar is
    made. *)
Theorem run_fetch_failure
    (remote : request -> response)
    (decode : string -> option (list sample)
              -> option (list sample) * outcome)
    (resample_interpolate : list sample -> pyexc + list sample)
    (stations_of : string -> pyexc + list pydict)
    (float_str : pyfloat -> string) (to_ical : Calendar -> string)
    (b64encode : string -> string) (self : TidePredictor) :
  status_code (remote (mkRequest base_url (prediction_params self))) <> 200 ->
  run remote decode resample_interpolate stations_of float_str to_ical
      b64encode self
  = mkRan (set_tides self None) (Raised TypeError)
          [mkRequest base_url (prediction_params self)] [] None.
Proof.
  intros H. unfold run, get_tide_predictions.
  apply Z.eqb_neq in H. rewrite H. reflexivity.
Qed.

Lemma run_fetch_failure_witness :
  status_code (not_found (mkRequest base_url (prediction_params fresh)))
  <> 200
  /\ run not_found demo_decode demo_resample demo_stations demo_float_str
         demo_to_ical demo_b64encode fresh
     = mkRan (set_tides fresh None) (Raised TypeError)
             [mkRequest base_url (prediction_params fresh)] [] None.
Proof.
  assert (H : status_code
                (not_found (mkRequest base_url (prediction_params fresh)))
              <> 200) by discriminate.
  split; [exact H|].
  exact (run_fetch_failure not_found demo_decode demo_resample demo_stations
           demo_float_str demo_to_ical demo_b64encode fresh H).
Defined.

(** X16: [run] sends the prediction request first and at most one more
    request, the one for the station; and it hands out a calendar exactly
    when it returns without an exception. *)
Theorem run_requests
    (remote : request -> response)
    (decode : string -> option (list sample)
              -> option (list sample) * outcome)
    (resample_interpolate : list sample -> pyexc + list sample)
    (stations_of : string -> pyexc + list pydict)
    (float_str : pyfloat -> string) (to_ical : Calendar -> string)
    (b64encode : string -> string) (self : TidePredictor) :
  let r := run remote decode resample_interpolate stations_of float_str
               to_ical b64encode self in
  (requests r = [mkRequest base_url (prediction_params self)]
   \/ requests r = [mkRequest base_url (prediction_params self);
                    mkRequest (station_endpoint self) []])
  /\ (how_ended r = Returned <-> exists out, output r = Some out).
Proof.
  unfold run.
  destruct (get_tide_predictions_sent remote decode self) as [Hs Hid].
  rewrite Hs.
  destruct (ended _).
  2: { simpl. split; [now left|]. split; [discriminate | now intros [? ?]]. }
  pose proof (interpolate_tides_station_id resample_interpolate
                (after (get_tide_predictions remote decode self))) as H1.
  destruct (interpolate_tides _ _) as [s1 [|e1]]; simpl in H1.
  2: { simpl. split; [now left|]. split; [discriminate | now intros [? ?]]. }
  pose proof (get_intervals_station_id s1) as H2.
  destruct (get_intervals s1) as [s2 [|e2]]; simpl in H2.
  2: { simpl. split; [now left|]. split; [discriminate | now intros [? ?]]. }
  assert (E : station_endpoint s2 = station_endpoint self)
    by (apply station_endpoint_ext; congruence).
  unfold get_station_info. rewrite E.
  destruct (status_code _ =? 200); [destruct (stations_of _)|]; simpl;
    try destruct (create_ical_file _ _ _ _); simpl;
    (split; [now right|]);
    (split; [try discriminate; intros _; eexists; reflexivity
            | try reflexivity; now intros [? ?]]).
Qed.

(** X17: when both requests return status 200 with readable bodies, the
    pandas call returns rows and the first station record has a name,
    [run] returns: it has sent the two requests, printed nothing, stored
    the intervals of the interpolated rows, and the events of the
    calendar it hands out span exactly those intervals, in order. *)
Theorem run_success
    (remote : request -> response)
    (decode : string -> option (list sample)
              -> option (list sample) * outcome)
    (resample_interpolate : list sample -> pyexc + list sample)
    (stations_of : string -> pyexc + list pydict)
    (float_str : pyfloat -> string) (to_ical : Calendar -> string)
    (b64encode : string -> string) (self : TidePredictor)
    (df rows : list sample) (first : pydict) (others : list pydict)
    (station_name : string) :
  let preq := mkRequest base_url (prediction_params self) in
  let sreq := mkRequest (station_endpoint self) [] in
  status_code (remote preq) = 200 ->
  decode (text (remote preq)) (tides self) = (Some df, Returned) ->
  resample_interpolate df = inr rows ->
  status_code (remote sreq) = 200 ->
  stations_of (text (remote sreq)) = inr (first :: others) ->
  dict_get first "name" = Some station_name ->
  let r := run remote decode resample_interpolate stations_of float_str
               to_ical b64encode self in
  how_ended r = Returned
  /\ requests r = [preq; sreq]
  /\ printed r = []
  /\ intervals (final r) = Some (emitted (low self) (high self) rows)
  /\ exists out,
       output r = Some out
       /\ map event_span (cal out) = emitted (low self) (high self) rows.
Proof.
  intros preq sreq S D L S' D' N r. subst r preq sreq.
  rewrite (run_reaches_station _ _ _ _ _ _ _ _ _ _ S D L).
  cbv zeta. unfold get_station_info.
  change (station_endpoint (mkTidePredictor _ _ _ _ _ _ _ _ _ _))
    with (station_endpoint self).
  apply Z.eqb_eq in S'. rewrite S', D'. simpl.
  destruct (create_ical_file float_str to_ical b64encode _)
    as [e|out] eqn:C.
  - exfalso. unfold create_ical_file in C. simpl in C. rewrite N in C.
    discriminate C.
  - simpl. repeat split. exists out. split; [reflexivity|].
    destruct (create_ical_file_cal _ _ _ _ _ _ C eq_refl) as [name ->].
    rewrite map_map. unfold event_span. simpl.
    rewrite <- (map_id (emitted _ _ _)) at 2. apply map_ext. now intros [s e].
Qed.

Lemma run_success_witness :
  let r := run all_ok demo_decode demo_resample demo_stations demo_float_str
               demo_to_ical demo_b64encode fresh in
  how_ended r = Returned
  /\ requests r = [mkRequest base_url (prediction_params fresh);
                   mkRequest (station_endpoint fresh) []]
  /\ printed r = []
  /\ intervals (final r) = Some (emitted (low fresh) (high fresh) two_humps)
  /\ exists out,
       output r = Some out
       /\ map event_span (cal out)
          = emitted (low fresh) (high fresh) two_humps.
Proof.
  exact (run_success all_ok demo_decode demo_resample demo_stations
           demo_float_str demo_to_ical demo_b64encode fresh
           two_humps two_humps _ _ "Nanoose Bay"
           eq_refl eq_refl eq_refl eq_refl eq_refl eq_refl).
Defined.

(** X18: on an object without station records, when the first three steps
    return and the station request does not return status 200, [run]
    prints the failure line, goes on to the exporter and ends there with a
    [TypeError]: the intervals are stored but no calendar is made. *)
Theorem run_station_failure
    (remote : request -> response)
    (decode : string -> option (list sample)
              -> option (list sample) * outcome)
    (resample_interpolate : list sample -> pyexc + list sample)
    (stations_of : string -> pyexc + list pydict)
    (float_str : pyfloat -> string) (to_ical : Calendar -> string)
    (b64encode : string -> string) (self : TidePredictor)
    (df rows : list sample) :
  let preq := mkRequest base_url (prediction_params self) in
  let sreq := mkRequest (station_endpoint self) [] in
  station_info self = None ->
  status_code (remote preq) = 200 ->
  decode (text (remote preq)) (tides self) = (Some df, Returned) ->
  resample_interpolate df = inr rows ->
  status_code (remote sreq) <> 200 ->
  let r := run remote decode resample_interpolate stations_of float_str
               to_ical b64encode self in
  how_ended r = Raised TypeError
  /\ requests r = [preq; sreq]
  /\ printed r = [station_failure]
  /\ intervals (final r) = Some (emitted (low self) (high self) rows)
  /\ output r = None.
Proof.
  intros preq sreq I S D L S' r. subst r preq sreq.
  rewrite (run_reaches_station _ _ _ _ _ _ _ _ _ _ S D L).
  cbv zeta. unfold get_station_info.
  change (station_endpoint (mkTidePredictor _ _ _ _ _ _ _ _ _ _))
    with (station_endpoint self).
  apply Z.eqb_neq in S'. rewrite S'. simpl.
  unfold create_ical_file. simpl. rewrite I. simpl. repeat split.
Qed.

Lemma run_station_failure_witness :
  let r := run station_down demo_decode demo_resample demo_stations
               demo_float_str demo_to_ical demo_b64encode fresh in
  station_info fresh = None
  /\ status_code (station_down (mkRequest (station_endpoint fresh) []))
     <> 200
  /\ how_ended r = Raised TypeError
  /\ requests r = [mkRequest base_url (prediction_params fresh);
                   mkRequest (station_endpoint fresh) []]
  /\ printed r = [station_failure]
  /\ intervals (final r) = Some (emitted (low fresh) (high fresh) two_humps)
  /\ output r = None.
Proof.
  assert (H : status_code (station_down
                             (mkRequest (station_endpoint fresh) []))
              <> 200) by (vm_compute; discriminate).
  split; [reflexivity|]. split; [exact H|].
  exact (run_station_failure station_down demo_decode demo_resample
           demo_stations demo_float_str demo_to_ical demo_b64encode fresh
           two_humps two_humps eq_refl eq_refl eq_refl eq_refl H).
Defined.

(** ** The script [main.py] *)

(** X19: when the catalog request does not return status 200, the script
    prints the failure line and then ends with a [TypeError], raised by
    [len(None)]; it prints no count. *)
Theorem main_catalog_failure
    (remote : request -> response)
    (stations_of : string -> pyexc + list pydict) :
  status_code (remote (mkRequest stations_url [])) <> 200 ->
  main remote stations_of
  = mkScripted (inl TypeError) [mkRequest stations_url []] [catalog_failure].
Proof.
  intros H. unfold main, get_tide_stations.
  apply Z.eqb_neq in H. rewrite H. reflexivity.
Qed.

Lemma main_catalog_failure_witness :
  status_code (not_found (mkRequest stations_url [])) <> 200
  /\ main not_found demo_stations
     = mkScripted (inl TypeError) [mkRequest stations_url []]
                  [catalog_failure].
Proof.
  assert (H : status_code (not_found (mkRequest stations_url [])) <> 200)
    by discriminate.
  split; [exact H|].
  exact (main_catalog_failure not_found demo_stations H).
Defined.

(** X20: the script ends without an exception exactly when the catalog
    request returns status 200 with a readable body, and it has then
    printed one line, the number of stations in that body; in every case
    it has sent one request. *)
Theorem main_returns_iff
    (remote : request -> response)
    (stations_of : string -> pyexc + list pydict) :
  let req := mkRequest stations_url [] in
  script_sent (main remote stations_of) = [req]
  /\ (result (main remote stations_of) = inr tt
      <-> exists tide_stations,
            status_code (remote req) = 200
            /\ stations_of (text (remote req)) = inr tide_stations
            /\ script_printed (main remote stations_of)
               = [print_len (List.length tide_stations)]).
Proof.
  unfold main, get_tide_stations. simpl.
  destruct (status_code _ =? 200) eqn:S.
  - apply Z.eqb_eq in S.
    destruct (stations_of _) as [e|l] eqn:D; simpl.
    + split; [reflexivity|]. split; [discriminate|].
      intros (l & _ & A & _). discriminate A.
    + split; [reflexivity|]. split; [|reflexivity].
      intros _. now exists l.
  - apply Z.eqb_neq in S. simpl. split; [reflexivity|].
    split; [discriminate|]. intros (l & A & _). contradiction.
Qed.

(** ** [interpolate_tides] *)

(** X21: whatever the pandas call does, [interpolate_tides] writes no field
    but [interpolated_tides] (putting the old value of that field back
    gives the object as it was); when it raises, the object is untouched,
    so an interpolated series left from before stays; and without fetched
    predictions it raises a [TypeError] without calling pandas. *)
Theorem interpolate_tides_frame
    (resample_interpolate : list sample -> pyexc + list sample)
    (self : TidePredictor) :
  let r := interpolate_tides resample_interpolate self in
  set_interpolated_tides (fst r) (interpolated_tides self) = self
  /\ (snd r = Returned \/ fst r = self)
  /\ match tides self with
     | None => snd r = Raised TypeError
     | Some df =>
         match resample_interpolate df with
         | inl e => snd r = Raised e
         | inr rows =>
             snd r = Returned /\ interpolated_tides (fst r) = Some rows
         end
     end.
Proof.
  assert (R : set_interpolated_tides self (interpolated_tides self) = self)
    by now destruct self.
  unfold interpolate_tides.
  destruct (tides self) as [df|];
    [destruct (resample_interpolate df) as [e|rows]|]; simpl; auto.
Qed.
